(** * dz_phonenumber: the Algerian phone-number classifier

    A shallow embedding of [src/dz_phonenumber/__init__.py] and the
    properties of its natural-language specification.

    Modelling conventions.
    - A Python [str] is a [string]; its characters are [ascii], i.e. the code
      points below 256.  On that range the regex class [\d] matches exactly
      the characters '0' .. '9'.
    - A Python [dict] with [str] keys is a [gmap string V].  A dict display
      [{k1: v1, k2: v2, ...}] inserts its items from left to right
      ([dict_literal]), so a repeated key keeps the value written last.
    - Operations that can raise ([s[i]], [d[k]]) return a [Py.result].
    - The methods of [PhoneNumber] mutate [self]; they are computations in
      the state-and-exception monad [M] over the record of attributes.
    - [get_all_info] returns a dict of [PyObj.value]s; [__str__] returns a
      [PyObj.result] and takes the interpreter's [repr] of a float as a
      parameter. *)

From Stdlib Require Import Ascii String PrimFloat.
From stdpp Require Import gmap strings.

(* The coordinates of the table are decimal literals; as in Python each one
   denotes the nearest binary64 value. *)
#[local] Set Warnings "-inexact-float".

Local Open Scope string_scope.

(** ** The fragment of Python the module uses *)

Module Py.

Inductive exn : Type :=
| IndexError
| KeyError (key : string).

Inductive result (A : Type) : Type :=
| Ok (a : A)
| Raise (e : exn).
Arguments Ok {A} a.
Arguments Raise {A} e.

(** [len(s)] *)
Definition len (s : string) : Z := Z.of_nat (String.length s).

(** [s.startswith(p)] *)
Definition startswith (s p : string) : bool := String.prefix p s.

(** [s[n:]] for a literal [n >= 0]: never raises, empty when [n] is past
    the end. *)
Fixpoint slice_from (n : nat) (s : string) : string :=
  match n, s with
  | O, _ => s
  | S _, EmptyString => EmptyString
  | S n', String _ s' => slice_from n' s'
  end.

(** [s[:n]] for a literal [n >= 0]: never raises, the whole string when it
    is shorter than [n]. *)
Fixpoint slice_to (n : nat) (s : string) : string :=
  match n, s with
  | O, _ => EmptyString
  | S _, EmptyString => EmptyString
  | S n', String c s' => String c (slice_to n' s')
  end.

(** [s[i]] for a literal [i >= 0]: a one-character string, [IndexError]
    when [i] is out of range. *)
Fixpoint str_getitem (s : string) (i : nat) : result string :=
  match s, i with
  | EmptyString, _ => Raise IndexError
  | String c _, O => Ok (String c EmptyString)
  | String _ s', S i' => str_getitem s' i'
  end.

(** [x in t] for a tuple of strings, and for a tuple of ints. *)
Definition str_in_tuple (x : string) (t : list string) : bool :=
  existsb (String.eqb x) t.

Definition int_in_tuple (x : Z) (t : list Z) : bool :=
  existsb (Z.eqb x) t.

(** The dict display [{k1: v1, ...}]: items are stored in source order. *)
Definition dict_literal {V : Type} (items : list (string * V))
  : gmap string V :=
  fold_left (fun d kv => <[kv.1 := kv.2]> d) items ∅.

(** [k in d] *)
Definition dict_contains {V : Type} (k : string) (d : gmap string V)
  : bool :=
  match d !! k with Some _ => true | None => false end.

(** [d[k]] *)
Definition dict_getitem {V : Type} (d : gmap string V) (k : string)
  : result V :=
  match d !! k with Some v => Ok v | None => Raise (KeyError k) end.

(** [d.get(k, default)] *)
Definition dict_get {V : Type} (d : gmap string V) (k : string)
    (default : V) : V :=
  match d !! k with Some v => v | None => default end.

(** The character class [\d] on code points below 256. *)
Definition re_digit (c : ascii) : bool :=
  let n := N_of_ascii c in ((48 <=? n) && (n <=? 57))%N.

(** [re.sub(cls, repl, s)] for a pattern [cls] that is one character
    class: every character the class matches is replaced by [repl]. *)
Fixpoint re_sub_class (cls : ascii -> bool) (repl s : string) : string :=
  match s with
  | EmptyString => EmptyString
  | String c s' =>
      if cls c then repl +:+ re_sub_class cls repl s'
      else String c (re_sub_class cls repl s')
  end.

End Py.

Import Py.

(** ** [GeoCoder] *)

Record GeoCoder : Type := mkGeoCoder {
  name : string;
  longitude : float;
  latitude : float;
  altitude : Z;
  timezone : string
}.

(** The dataclass constructor called with four positional arguments: the
    timezone takes its default; the altitudes of the table are written as
    int literals. *)
Definition GeoCoder4 (n : string) (lon lat : float) (alt : Z) : GeoCoder :=
  mkGeoCoder n lon lat alt "Africa/Algiers".

(** ** [_Const]: the reference tables *)

(** A value of [NUMBER_LENGTHS]: an int or a tuple of ints. *)
Inductive length_spec : Type :=
| LenInt (n : Z)
| LenTuple (ns : list Z).

(** [n == v] for an int [n]: an int never equals a tuple. *)
Definition int_eq_length_spec (n : Z) (v : length_spec) : bool :=
  match v with
  | LenInt m => Z.eqb n m
  | LenTuple _ => false
  end.

Module _Const.

Definition COUNTRY_CODE : string := "+213".
Definition INTERNATIONAL_PREFIX : string := "00".
Definition NATIONAL_PREFIX : string := "0".
Definition TRUNK_PREFIX : string := "0".

Definition LANDLINE_PATTERNS : list string := ["2"; "3"; "4"].
Definition MOBILE_PATTERNS : list string := ["5"; "6"; "7"].
Definition SPECIAL_PATTERNS : list string := ["8"; "9"].

Definition MOBILE_CARRIERS_items : list (string * string) :=
  [ ("5", "Ooredoo");
    ("6", "Mobilis");
    ("7", "Djezzy") ].

Definition MOBILE_CARRIERS : gmap string string :=
  dict_literal MOBILE_CARRIERS_items.

Definition NUMBER_LENGTHS_items : list (string * length_spec) :=
  [ ("mobile", LenInt 9);
    ("landline", LenInt 8);
    ("voip", LenInt 8);
    ("vsat", LenInt 8);
    ("short_code", LenInt 4);
    ("emergency", LenTuple [2; 3; 4]%Z) ].

Definition NUMBER_LENGTHS : gmap string length_spec :=
  dict_literal NUMBER_LENGTHS_items.

Definition LANDLINE_REGIONS_items : list (string * GeoCoder) :=
  [ ("49", GeoCoder4 "Adrar" (-0.2936) 27.8743 258);
    ("27", GeoCoder4 "Ain Defla" 1.9594 36.2509 190);
    ("43", GeoCoder4 "Ain Temouchent" (-1.1400) 35.2970 120);
    ("21", GeoCoder4 "Algiers" 3.0588 36.7538 10);
    ("38", GeoCoder4 "Annaba" 7.7667 36.9000 3);
    ("33", GeoCoder4 "Batna" 6.1697 35.5559 1048);
    ("34", GeoCoder4 "Bejaia" 5.0667 36.7500 2);
    ("25", GeoCoder4 "Blida" 2.8276 36.4700 260);
    ("35", GeoCoder4 "Bordj Bou Arreridj" 4.7611 36.0736 928);
    ("26", GeoCoder4 "Bouira" 3.9000 36.3667 519);
    ("24", GeoCoder4 "Boumerdes" 3.4772 36.7664 10);
    ("27", GeoCoder4 "Chlef" 1.3319 36.1654 114);
    ("31", GeoCoder4 "Constantine" 6.6147 36.3650 694);
    ("27", GeoCoder4 "Djelfa" 3.2500 34.6667 1143);
    ("32", GeoCoder4 "El Oued" 6.8639 33.3683 76);
    ("29", GeoCoder4 "Ghardaia" 3.6736 32.4839 572);
    ("37", GeoCoder4 "Guelma" 7.4264 36.4614 290);
    ("29", GeoCoder4 "Illizi" 8.4667 26.4833 558);
    ("34", GeoCoder4 "Jijel" 5.7667 36.8167 10);
    ("32", GeoCoder4 "Khenchela" 7.1464 35.4269 1122);
    ("29", GeoCoder4 "Laghouat" 2.8667 33.8000 769);
    ("35", GeoCoder4 "M'sila" 4.5333 35.7000 471);
    ("45", GeoCoder4 "Mascara" 0.1408 35.4000 570);
    ("25", GeoCoder4 "Medea" 2.7583 36.2675 920);
    ("31", GeoCoder4 "Mila" 6.2647 36.4503 470);
    ("45", GeoCoder4 "Mostaganem" 0.0892 35.9333 104);
    ("41", GeoCoder4 "Oran" (-0.6333) 35.6911 101);
    ("29", GeoCoder4 "Ouargla" 5.3333 31.9500 141);
    ("32", GeoCoder4 "Oum El Bouaghi" 7.1136 35.8778 902);
    ("46", GeoCoder4 "Relizane" 0.5558 35.7372 98);
    ("48", GeoCoder4 "Saida" 4.8306 34.8303 870);
    ("36", GeoCoder4 "Setif" 5.4089 36.1919 1096);
    ("48", GeoCoder4 "Sidi Bel Abbes" (-0.6333) 35.2000 470);
    ("38", GeoCoder4 "Skikda" 6.9094 36.8667 18);
    ("37", GeoCoder4 "Souk Ahras" 7.9514 36.2864 699);
    ("29", GeoCoder4 "Tamanrasset" 5.5167 22.7850 1320);
    ("37", GeoCoder4 "Tebessa" 8.1206 35.4072 858);
    ("46", GeoCoder4 "Tiaret" 1.3167 35.3667 1032);
    ("43", GeoCoder4 "Tlemcen" (-1.3139) 34.8828 842);
    ("24", GeoCoder4 "Tipaza" 2.4500 36.5833 120);
    ("46", GeoCoder4 "Tissemsilt" 1.8000 35.6000 850);
    ("26", GeoCoder4 "Tizi Ouzou" 4.0500 36.7167 200) ]%float.

Definition LANDLINE_REGIONS : gmap string GeoCoder :=
  dict_literal LANDLINE_REGIONS_items.

Definition EMERGENCY_NUMBERS_items : list (string * string) :=
  [ ("1548", "Police Nationale");
    ("17", "Police (Short Code)");
    ("1055", "Gendarmerie Nationale");
    ("1054", "Coast Guard");
    ("14", "Protection Civile");
    ("1021", "Civil Protection");
    ("1040", "SAMU (Emergency Medical)");
    ("1234", "Electricity Emergency");
    ("1235", "Gas Emergency") ].

Definition EMERGENCY_NUMBERS : gmap string string :=
  dict_literal EMERGENCY_NUMBERS_items.

Definition SPECIAL_NUMBERS_items : list (string * string) :=
  [ ("98", "VOIP");
    ("96", "VSAT");
    ("97", "IoT/M2M Services") ].

Definition SPECIAL_NUMBERS : gmap string string :=
  dict_literal SPECIAL_NUMBERS_items.

End _Const.

(** ** [PhoneNumber]: the attributes of an instance *)

Record PhoneNumber : Type := mkPhoneNumber {
  original_number : string;
  clean_number : string;
  number_type : option string;
  area_code : option string;
  carrier : option string;
  location : option GeoCoder;
  is_valid : bool
}.

(** ** The monad of methods: state [self], exceptions *)

Definition M (A : Type) : Type := PhoneNumber -> result (A * PhoneNumber).

Definition ret {A : Type} (a : A) : M A := fun self => Ok (a, self).

Definition bind {A B : Type} (c : M A) (k : A -> M B) : M B :=
  fun self =>
    match c self with
    | Ok (a, self') => k a self'
    | Raise e => Raise e
    end.

(** An expression that may raise, evaluated inside a method. *)
Definition lift {A : Type} (r : result A) : M A :=
  fun self =>
    match r with
    | Ok a => Ok (a, self)
    | Raise e => Raise e
    end.

(** Reading [self]. *)
Definition get_self : M PhoneNumber := fun self => Ok (self, self).

(** Attribute assignments [self.f = v]. *)
Definition set_number_type (v : option string) : M unit :=
  fun self =>
    Ok (tt, mkPhoneNumber (original_number self) (clean_number self) v
              (area_code self) (carrier self) (location self)
              (is_valid self)).

Definition set_area_code (v : option string) : M unit :=
  fun self =>
    Ok (tt, mkPhoneNumber (original_number self) (clean_number self)
              (number_type self) v (carrier self) (location self)
              (is_valid self)).

Definition set_carrier (v : option string) : M unit :=
  fun self =>
    Ok (tt, mkPhoneNumber (original_number self) (clean_number self)
              (number_type self) (area_code self) v (location self)
              (is_valid self)).

Definition set_location (v : option GeoCoder) : M unit :=
  fun self =>
    Ok (tt, mkPhoneNumber (original_number self) (clean_number self)
              (number_type self) (area_code self) (carrier self) v
              (is_valid self)).

Definition set_is_valid (v : bool) : M unit :=
  fun self =>
    Ok (tt, mkPhoneNumber (original_number self) (clean_number self)
              (number_type self) (area_code self) (carrier self)
              (location self) v).

Declare Scope method_scope.
Delimit Scope method_scope with method.
Notation "x <- c ;; k" := (bind c (fun x => k))
  (at level 100, c at next level, right associativity) : method_scope.
Notation "c ;; k" := (bind c (fun _ => k))
  (at level 100, right associativity) : method_scope.

(** ** The methods of [PhoneNumber] *)

(** The pattern [[^\d+]]: a character that is neither a digit nor '+'. *)
Definition not_digit_nor_plus (c : ascii) : bool :=
  negb (re_digit c || Ascii.eqb c "+"%char).

(** [re.sub(r'[^\d+]', '', number)] *)
Definition _normalize_number (number : string) : string :=
  re_sub_class not_digit_nor_plus "" number.

Definition _parse_mobile (num : string) : M unit :=
  (d <- lift (str_getitem num 0) ;;
   if str_in_tuple d _Const.MOBILE_PATTERNS then
     set_number_type (Some "mobile") ;;
     d' <- lift (str_getitem num 0) ;;
     set_carrier (Some (dict_get _Const.MOBILE_CARRIERS d' "Unknown")) ;;
     set_is_valid true
   else ret tt)%method.

Definition _parse_landline (num : string) : M unit :=
  (d <- lift (str_getitem num 0) ;;
   if str_in_tuple d _Const.LANDLINE_PATTERNS then
     let area := slice_to 2 num in
     if dict_contains area _Const.LANDLINE_REGIONS then
       set_number_type (Some "landline") ;;
       set_area_code (Some area) ;;
       loc <- lift (dict_getitem _Const.LANDLINE_REGIONS area) ;;
       set_location (Some loc) ;;
       set_is_valid true
     else ret tt
   else ret tt)%method.

(** The two prefix-stripping statements at the head of [_parse_number]. *)
Definition strip_international (num : string) : string :=
  if startswith num "213" then slice_from 3 num
  else if startswith num "+213" then slice_from 4 num
  else num.

Definition strip_national (num : string) : string :=
  if startswith num "0" then slice_from 1 num else num.

Definition _parse_number : M unit :=
  (self <- get_self ;;
   let num := clean_number self in
   let num := strip_international num in
   let num := strip_national num in
   if int_in_tuple (len num) [2; 3; 4]%Z
      && dict_contains num _Const.EMERGENCY_NUMBERS
   then
     set_number_type (Some "emergency") ;;
     set_is_valid true
   else
     l_mobile <- lift (dict_getitem _Const.NUMBER_LENGTHS "mobile") ;;
     if int_eq_length_spec (len num) l_mobile then _parse_mobile num
     else
       l_landline <- lift (dict_getitem _Const.NUMBER_LENGTHS "landline") ;;
       if int_eq_length_spec (len num) l_landline then _parse_landline num
       else
         l_voip <- lift (dict_getitem _Const.NUMBER_LENGTHS "voip") ;;
         if int_eq_length_spec (len num) l_voip && startswith num "98"
         then
           set_number_type (Some "voip") ;;
           set_is_valid true
         else
           l_vsat <- lift (dict_getitem _Const.NUMBER_LENGTHS "vsat") ;;
           if int_eq_length_spec (len num) l_vsat && startswith num "96"
           then
             set_number_type (Some "vsat") ;;
             set_is_valid true
           else
             set_is_valid false)%method.

(** [PhoneNumber(number)]: the attributes after [__init__] has run, or the
    exception it raised. *)
Definition __init__ (number : string) : result PhoneNumber :=
  let self :=
    {| original_number := number;
       clean_number := _normalize_number number;
       number_type := None;
       area_code := None;
       carrier := None;
       location := None;
       is_valid := false |} in
  match _parse_number self with
  | Ok (_, self') => Ok self'
  | Raise e => Raise e
  end.

(** The specification calls the constructor [classify]. *)
Definition classify (raw_input : string) : result PhoneNumber :=
  __init__ raw_input.

(** [self.number_type == t] *)
Definition number_type_is (self : PhoneNumber) (t : string) : bool :=
  match number_type self with
  | Some t' => String.eqb t' t
  | None => false
  end.

Definition is_mobile (self : PhoneNumber) : bool :=
  number_type_is self "mobile".

Definition is_landline (self : PhoneNumber) : bool :=
  number_type_is self "landline".

Definition is_emergency (self : PhoneNumber) : bool :=
  number_type_is self "emergency".

Definition is_voip (self : PhoneNumber) : bool :=
  number_type_is self "voip".

Definition is_vsat (self : PhoneNumber) : bool :=
  number_type_is self "vsat".

(** ** Vocabulary of the properties *)

(** The attributes of an instance on which parsing found nothing. *)
Definition unclassified (raw clean : string) : PhoneNumber :=
  mkPhoneNumber raw clean None None None None false.

(** The value a dict display keeps for a key: the one written last. *)
Fixpoint last_binding {V : Type} (k : string)
    (items : list (string * V)) : option V :=
  match items with
  | [] => None
  | (k', v) :: items' =>
      match last_binding k items' with
      | Some v' => Some v'
      | None => if String.eqb k' k then Some v else None
      end
  end.

(** The string [_parse_number] classifies: the normalized input without its
    international and national prefixes. *)
Definition national_number (clean : string) : string :=
  strip_national (strip_international clean).

(** The classification attributes of [r], attached to another input. *)
Definition with_input (raw clean : string) (r : PhoneNumber) : PhoneNumber :=
  mkPhoneNumber raw clean (number_type r) (area_code r) (carrier r)
                (location r) (is_valid r).

(** The possible attribute values after [__init__]. *)
Inductive outcome (raw clean : string) : PhoneNumber -> Prop :=
| outcome_emergency :
    outcome raw clean
      (mkPhoneNumber raw clean (Some "emergency") None None None true)
| outcome_mobile d c :
    In (d, c) _Const.MOBILE_CARRIERS_items ->
    str_getitem (national_number clean) 0 = Ok d ->
    outcome raw clean
      (mkPhoneNumber raw clean (Some "mobile") None (Some c) None true)
| outcome_landline geo :
    _Const.LANDLINE_REGIONS !! slice_to 2 (national_number clean)
      = Some geo ->
    outcome raw clean
      (mkPhoneNumber raw clean (Some "landline")
         (Some (slice_to 2 (national_number clean))) None (Some geo) true)
| outcome_invalid :
    outcome raw clean (unclassified raw clean).

(** Number of [true] answers among a list of predicates' results. *)
Definition count_true (bs : list bool) : nat :=
  List.length (List.filter (fun b : bool => b) bs).

(** The answers of the five category predicates, in source order. *)
Definition category_predicates (self : PhoneNumber) : list bool :=
  [is_mobile self; is_landline self; is_emergency self; is_voip self;
   is_vsat self].

(** The characters [_normalize_number] keeps. *)
Definition kept_by_normalize (c : ascii) : bool :=
  re_digit c || Ascii.eqb c "+"%char.

Definition is_digit_string (s : string) : bool :=
  forallb re_digit (list_ascii_of_string s).

(** The normal form as the specification words it: decimal digits only,
    except possibly one '+' at the front. *)
Definition spec_digits_after_optional_plus (t : string) : bool :=
  match t with
  | EmptyString => true
  | String c t' =>
      if Ascii.eqb c "+"%char then is_digit_string t' else is_digit_string t
  end.

(** The region the table keeps for area code 27. *)
Definition Djelfa : GeoCoder := GeoCoder4 "Djelfa" 3.2500 34.6667 1143.

(** The names written under an area code in the table, in source order. *)
Definition names_listed_under (k : string) : list string :=
  map (fun kv => name (snd kv))
      (List.filter (fun kv => String.eqb (fst kv) k)
                   _Const.LANDLINE_REGIONS_items).

(** Two instances with the same classification attributes. *)
Definition same_classification (r1 r2 : PhoneNumber) : Prop :=
  number_type r1 = number_type r2
  /\ carrier r1 = carrier r2
  /\ area_code r1 = area_code r2
  /\ location r1 = location r2
  /\ is_valid r1 = is_valid r2.

(** ** [get_all_info] and [__str__] *)

Module PyObj.

(** The values [get_all_info] stores under its keys: [None], a [str], a
    [bool], or a pair of floats. *)
Inductive value : Type :=
| VNone
| VStr (s : string)
| VBool (b : bool)
| VFloatPair (x y : float).

(** What [__str__] can raise: a missing key, or a method looked up on a
    value that has none of that name. *)
Inductive exn : Type :=
| KeyError (key : string)
| AttributeError (attr : string).

Inductive result (A : Type) : Type :=
| Ok (a : A)
| Raise (e : exn).
Arguments Ok {A} a.
Arguments Raise {A} e.

Definition bind {A B : Type} (r : result A) (k : A -> result B)
  : result B :=
  match r with
  | Ok a => k a
  | Raise e => Raise e
  end.

(** An optional attribute as a value. *)
Definition of_option (o : option string) : value :=
  match o with
  | Some s => VStr s
  | None => VNone
  end.

(** [d[k]] *)
Definition getitem (d : gmap string value) (k : string) : result value :=
  match d !! k with
  | Some v => Ok v
  | None => Raise (KeyError k)
  end.

(** [c.upper()] for a one-character string.  The letters a-z and the
    Latin-1 letters from a-grave to thorn (the division sign apart) move
    down by 32, sharp s becomes "SS"; the micro sign and y-diaeresis, whose
    upper-case forms lie above code point 255, are kept as they are. *)
Definition ascii_upper (c : ascii) : string :=
  let n := N_of_ascii c in
  if ((97 <=? n) && (n <=? 122))%N then
    String (ascii_of_N (n - 32)) EmptyString
  else if (n =? 223)%N then "SS"
  else if ((224 <=? n) && (n <=? 254) && negb (n =? 247))%N then
    String (ascii_of_N (n - 32)) EmptyString
  else String c EmptyString.

(** [s.upper()]; the module applies it to the type names only. *)
Fixpoint str_upper (s : string) : string :=
  match s with
  | EmptyString => EmptyString
  | String c s' => ascii_upper c ++ str_upper s'
  end.

(** [v.upper()]: only a [str] has the method. *)
Definition upper (v : value) : result value :=
  match v with
  | VStr s => Ok (VStr (str_upper s))
  | _ => Raise (AttributeError "upper")
  end.

(** [sep.join(parts)] *)
Fixpoint join (sep : string) (parts : list string) : string :=
  match parts with
  | [] => EmptyString
  | [p] => p
  | p :: parts' => p ++ sep ++ join sep parts'
  end.

(** The truth value of an optional [str] attribute: [None] and the empty
    string are false. *)
Definition truthy (o : option string) : bool :=
  match o with
  | Some (String _ _) => true
  | _ => false
  end.

End PyObj.

(** The line separator "\n". *)
Definition newline : string := String "010"%char EmptyString.

Definition get_all_info (self : PhoneNumber) : gmap string PyObj.value :=
  dict_literal
    [ ("original_number", PyObj.VStr (original_number self));
      ("clean_number", PyObj.VStr (clean_number self));
      ("type", PyObj.of_option (number_type self));
      ("valid", PyObj.VBool (is_valid self));
      ("carrier", PyObj.of_option (carrier self));
      ("area_code", PyObj.of_option (area_code self));
      ("location",
        match location self with
        | Some loc => PyObj.VStr (name loc)
        | None => PyObj.VNone
        end);
      ("coordinates",
        match location self with
        | Some loc => PyObj.VFloatPair (longitude loc) (latitude loc)
        | None => PyObj.VNone
        end);
      ("timezone",
        match location self with
        | Some loc => PyObj.VStr (timezone loc)
        | None => PyObj.VNone
        end) ].

Section Rendering.

(** [repr] of a float, which the interpreter supplies. *)
Variable float_repr : float -> string.

(** [f"{v}"]: [str(v)]; a tuple shows the [repr] of its components. *)
Definition format_value (v : PyObj.value) : string :=
  match v with
  | PyObj.VNone => "None"
  | PyObj.VStr s => s
  | PyObj.VBool true => "True"
  | PyObj.VBool false => "False"
  | PyObj.VFloatPair x y => "(" ++ float_repr x ++ ", " ++ float_repr y ++ ")"
  end.

Definition __str__ (self : PhoneNumber) : PyObj.result string :=
  if negb (is_valid self) then
    PyObj.Ok ("Invalid Algerian phone number: " ++ original_number self)
  else
    let info := get_all_info self in
    PyObj.bind (PyObj.getitem info "type") (fun ty =>
    PyObj.bind (PyObj.upper ty) (fun ty_upper =>
    let parts :=
      [ "Algerian Phone Number: " ++ clean_number self;
        "Type: " ++ format_value ty_upper ] in
    let parts :=
      if PyObj.truthy (carrier self)
      then List.app parts
             ["Carrier: " ++ format_value (PyObj.of_option (carrier self))]
      else parts in
    let parts :=
      if PyObj.truthy (area_code self)
      then List.app parts
             ["Area Code: "
              ++ format_value (PyObj.of_option (area_code self))]
      else parts in
    match location self with
    | Some _ =>
        PyObj.bind (PyObj.getitem info "location") (fun loc =>
        let parts := List.app parts ["Location: " ++ format_value loc] in
        PyObj.bind (PyObj.getitem info "coordinates") (fun coords =>
        let parts :=
          List.app parts ["Coordinates: " ++ format_value coords] in
        PyObj.Ok (PyObj.join newline parts)))
    | None => PyObj.Ok (PyObj.join newline parts)
    end)).

End Rendering.

(** The names of the table entries that a later entry with the same area
    code replaces. *)
Definition shadowed_names : list string :=
  map (fun kv => name (snd kv))
      (List.filter
         (fun kv =>
            match last_binding (fst kv) _Const.LANDLINE_REGIONS_items with
            | Some geo => negb (String.eqb (name geo) (name (snd kv)))
            | None => false
            end)
         _Const.LANDLINE_REGIONS_items).

(** ** Properties *)

(** Claim C7.  Emergency classification is an exact key match:
    [classify "17"] is valid with category emergency, while [classify "170"]
    (length 3, not a key of the emergency table, no other length rule
    applies) is invalid and has no category. *)
Theorem C7_emergency_exact_match :
  classify "17"
    = Ok (mkPhoneNumber "17" "17" (Some "emergency") None None None true)
  /\ classify "170" = Ok (unclassified "170" "170")
  /\ dict_contains "17" _Const.EMERGENCY_NUMBERS = true
  /\ dict_contains "170" _Const.EMERGENCY_NUMBERS = false.
Proof. repeat split; vm_compute; reflexivity. Qed.

(** *** The reference tables *)

Section Tables.

Context {V : Type}.

Lemma fold_insert_lookup (items : list (string * V))
    (d : gmap string V) (k : string) :
  fold_left (fun d kv => <[kv.1 := kv.2]> d) items d !! k
  = match last_binding k items with
    | Some v => Some v
    | None => d !! k
    end.
Proof.
  revert d. induction items as [|[k' v] items IH]; intros d; cbn.
  - reflexivity.
  - rewrite IH. destruct (last_binding k items) as [v'|]; [reflexivity|].
    destruct (String.eqb_spec k' k) as [-> | Hne].
    + apply lookup_insert_eq.
    + apply lookup_insert_ne. exact Hne.
Qed.

Lemma dict_literal_lookup (items : list (string * V)) (k : string) :
  dict_literal items !! k = last_binding k items.
Proof.
  unfold dict_literal. rewrite fold_insert_lookup.
  destruct (last_binding k items); [reflexivity | apply lookup_empty].
Qed.

Lemma dict_contains_getitem (d : gmap string V) (k : string) :
  dict_contains k d = true -> exists v, d !! k = Some v
                                        /\ dict_getitem d k = Ok v.
Proof.
  unfold dict_contains, dict_getitem.
  destruct (d !! k) as [v|]; [eauto | discriminate].
Qed.

End Tables.

Lemma NUMBER_LENGTHS_mobile :
  dict_getitem _Const.NUMBER_LENGTHS "mobile" = Ok (LenInt 9).
Proof. vm_compute. reflexivity. Qed.

Lemma NUMBER_LENGTHS_landline :
  dict_getitem _Const.NUMBER_LENGTHS "landline" = Ok (LenInt 8).
Proof. vm_compute. reflexivity. Qed.

Lemma NUMBER_LENGTHS_voip :
  dict_getitem _Const.NUMBER_LENGTHS "voip" = Ok (LenInt 8).
Proof. vm_compute. reflexivity. Qed.

Lemma NUMBER_LENGTHS_vsat :
  dict_getitem _Const.NUMBER_LENGTHS "vsat" = Ok (LenInt 8).
Proof. vm_compute. reflexivity. Qed.

(** Membership in [MOBILE_PATTERNS] names one of the three keys of
    [MOBILE_CARRIERS]. *)
Lemma MOBILE_PATTERNS_inv (d : string) :
  str_in_tuple d _Const.MOBILE_PATTERNS = true ->
  d = "5" \/ d = "6" \/ d = "7".
Proof.
  unfold str_in_tuple, _Const.MOBILE_PATTERNS. cbn [existsb].
  destruct (String.eqb_spec d "5"); [auto|].
  destruct (String.eqb_spec d "6"); [auto|].
  destruct (String.eqb_spec d "7"); [auto|].
  discriminate.
Qed.

Lemma MOBILE_CARRIERS_get (d : string) :
  str_in_tuple d _Const.MOBILE_PATTERNS = true ->
  In (d, dict_get _Const.MOBILE_CARRIERS d "Unknown")
     _Const.MOBILE_CARRIERS_items.
Proof.
  intros H. destruct (MOBILE_PATTERNS_inv d H) as [-> | [-> | ->]];
    vm_compute; auto.
Qed.

Lemma len_pos_getitem (num : string) (n : Z) :
  len num = n -> (0 < n)%Z ->
  exists c rest, num = String c rest
                 /\ str_getitem num 0 = Ok (String c EmptyString).
Proof.
  unfold len. destruct num as [|c rest]; cbn [String.length]; intros <- Hn.
  - lia.
  - eauto.
Qed.

Ltac run_method :=
  unfold bind, lift, ret, get_self, set_number_type, set_carrier,
    set_area_code, set_location, set_is_valid;
  cbn [original_number clean_number number_type area_code carrier location
       is_valid unclassified].

Lemma _parse_mobile_outcome (raw clean : string) :
  len (national_number clean) = 9%Z ->
  exists r, _parse_mobile (national_number clean) (unclassified raw clean)
            = Ok (tt, r)
            /\ outcome raw clean r.
Proof.
  intros Hlen.
  destruct (len_pos_getitem _ _ Hlen) as (c & rest & Hnum & Hget); [lia|].
  unfold _parse_mobile. run_method. rewrite Hget.
  destruct (str_in_tuple (String c "") _Const.MOBILE_PATTERNS) eqn:Hpat.
  - eexists; split; [reflexivity|].
    eapply outcome_mobile; [apply MOBILE_CARRIERS_get, Hpat | exact Hget].
  - eexists; split; [reflexivity | apply outcome_invalid].
Qed.

Lemma _parse_landline_outcome (raw clean : string) :
  len (national_number clean) = 8%Z ->
  exists r, _parse_landline (national_number clean) (unclassified raw clean)
            = Ok (tt, r)
            /\ outcome raw clean r.
Proof.
  intros Hlen.
  destruct (len_pos_getitem _ _ Hlen) as (c & rest & Hnum & Hget); [lia|].
  unfold _parse_landline. run_method. rewrite Hget.
  destruct (str_in_tuple (String c "") _Const.LANDLINE_PATTERNS);
    [| eexists; split; [reflexivity | apply outcome_invalid]].
  destruct (dict_contains _ _) eqn:Hin;
    [| eexists; split; [reflexivity | apply outcome_invalid]].
  destruct (dict_contains_getitem _ _ Hin) as (geo & Hgeo & ->).
  eexists; split; [reflexivity | apply outcome_landline, Hgeo].
Qed.

Lemma _parse_number_outcome (raw clean : string) :
  exists r, _parse_number (unclassified raw clean) = Ok (tt, r)
            /\ outcome raw clean r.
Proof.
  unfold _parse_number. run_method. fold (national_number clean).
  destruct (int_in_tuple _ _ && dict_contains _ _).
  { eexists; split; [reflexivity | apply outcome_emergency]. }
  rewrite NUMBER_LENGTHS_mobile. cbn [int_eq_length_spec].
  destruct (Z.eqb_spec (len (national_number clean)) 9) as [H9|H9].
  { apply _parse_mobile_outcome, H9. }
  rewrite NUMBER_LENGTHS_landline. cbn [int_eq_length_spec].
  destruct (Z.eqb_spec (len (national_number clean)) 8) as [H8|H8].
  { apply _parse_landline_outcome, H8. }
  rewrite NUMBER_LENGTHS_voip, NUMBER_LENGTHS_vsat.
  cbn [int_eq_length_spec].
  destruct (Z.eqb_spec (len (national_number clean)) 8) as [H8'|_];
    [contradiction|].
  cbn [andb]. eexists; split; [reflexivity | apply outcome_invalid].
Qed.

(** Construction never raises, and the attributes it leaves are one of the
    four [outcome]s. *)
Lemma __init___outcome (number : string) :
  exists r, __init__ number = Ok r
            /\ outcome number (_normalize_number number) r.
Proof.
  unfold __init__. fold (unclassified number (_normalize_number number)).
  destruct (_parse_number_outcome number (_normalize_number number))
    as (r & -> & Hr).
  eauto.
Qed.

(** *** Claims about every input *)

(** Claim C1 (the code departs from it).  [classify "98123456"] is not
    classified as voip: a national number of length 8 is handed to
    [_parse_landline] by the [elif] that precedes the voip test, so the
    instance stays without category and invalid; and no input at all makes
    [is_voip] answer true. *)
Theorem C1_voip_branch_shadowed_by_landline (s : string) :
  classify "98123456" = Ok (unclassified "98123456" "98123456")
  /\ exists r, classify s = Ok r /\ is_voip r = false.
Proof.
  split; [vm_compute; reflexivity|].
  unfold classify. destruct (__init___outcome s) as (r & Hr & Hout).
  exists r. split; [exact Hr|]. destruct Hout; reflexivity.
Qed.

(** A national number whose length is none of 2, 3, 4, 8, 9 matches no
    rule: [_parse_number] leaves the instance as it was. *)
Lemma _parse_number_other_length (raw clean : string) :
  int_in_tuple (len (national_number clean)) [2; 3; 4; 8; 9]%Z = false ->
  _parse_number (unclassified raw clean) = Ok (tt, unclassified raw clean).
Proof.
  unfold int_in_tuple. cbn [existsb]. rewrite !orb_false_iff.
  intros (H2 & H3 & H4 & H8 & H9 & _).
  unfold _parse_number. run_method. fold (national_number clean).
  unfold int_in_tuple. cbn [existsb]. rewrite H2, H3, H4. cbn [orb andb].
  rewrite NUMBER_LENGTHS_mobile, NUMBER_LENGTHS_landline,
    NUMBER_LENGTHS_voip, NUMBER_LENGTHS_vsat.
  cbn [int_eq_length_spec]. rewrite H8, H9. reflexivity.
Qed.

(** The attributes [_parse_number] leaves, as a function of the national
    number. *)
Lemma _parse_number_summary (raw clean : string) :
  _parse_number (unclassified raw clean)
  = Ok (tt,
        let num := national_number clean in
        if int_in_tuple (len num) [2; 3; 4]%Z
           && dict_contains num _Const.EMERGENCY_NUMBERS
        then mkPhoneNumber raw clean (Some "emergency") None None None true
        else if Z.eqb (len num) 9 then
          if str_in_tuple (slice_to 1 num) _Const.MOBILE_PATTERNS
          then mkPhoneNumber raw clean (Some "mobile") None
                 (Some (dict_get _Const.MOBILE_CARRIERS (slice_to 1 num)
                          "Unknown"))
                 None true
          else unclassified raw clean
        else if Z.eqb (len num) 8 then
          if str_in_tuple (slice_to 1 num) _Const.LANDLINE_PATTERNS
             && dict_contains (slice_to 2 num) _Const.LANDLINE_REGIONS
          then mkPhoneNumber raw clean (Some "landline")
                 (Some (slice_to 2 num)) None
                 (_Const.LANDLINE_REGIONS !! slice_to 2 num) true
          else unclassified raw clean
        else unclassified raw clean).
Proof.
  cbv zeta. unfold _parse_number. run_method.
  fold (national_number clean).
  generalize (national_number clean) as num. intros num.
  destruct (int_in_tuple _ _ && dict_contains _ _); [reflexivity|].
  rewrite NUMBER_LENGTHS_mobile. cbn [int_eq_length_spec].
  destruct (Z.eqb_spec (len num) 9) as [H9|H9].
  { destruct (len_pos_getitem _ _ H9) as (c & rest & -> & _); [lia|].
    unfold _parse_mobile. run_method. cbn [str_getitem slice_to].
    destruct (str_in_tuple _ _); reflexivity. }
  rewrite NUMBER_LENGTHS_landline. cbn [int_eq_length_spec].
  destruct (Z.eqb_spec (len num) 8) as [H8|H8].
  { destruct (len_pos_getitem _ _ H8) as (c & rest & -> & _); [lia|].
    unfold _parse_landline. run_method.
    cbn [str_getitem]. change (slice_to 1 (String c rest)) with (String c "").
    destruct (str_in_tuple _ _); [|reflexivity]. cbn [andb].
    destruct (dict_contains _ _) eqn:Hin; [|reflexivity].
    destruct (dict_contains_getitem _ _ Hin) as (geo & -> & ->).
    reflexivity. }
  rewrite NUMBER_LENGTHS_voip, NUMBER_LENGTHS_vsat.
  cbn [int_eq_length_spec].
  destruct (Z.eqb_spec (len num) 8) as [H8'|_]; [contradiction|].
  reflexivity.
Qed.

Lemma int_in_tuple_234 (n : Z) :
  int_in_tuple n [2; 3; 4]%Z = true ->
  Z.eqb n 9 = false /\ Z.eqb n 8 = false.
Proof.
  unfold int_in_tuple. cbn [existsb]. rewrite !orb_true_iff.
  intros [H|[H|[H|H]]]; try discriminate;
    apply Z.eqb_eq in H; subst n; split; reflexivity.
Qed.

(** Validity, as a function of the national number. *)
Lemma __init___is_valid (s : string) :
  exists r,
    __init__ s = Ok r
    /\ is_valid r
       = (let num := national_number (_normalize_number s) in
          int_in_tuple (len num) [2; 3; 4]%Z
          && dict_contains num _Const.EMERGENCY_NUMBERS
          || Z.eqb (len num) 9
             && str_in_tuple (slice_to 1 num) _Const.MOBILE_PATTERNS
          || Z.eqb (len num) 8
             && (str_in_tuple (slice_to 1 num) _Const.LANDLINE_PATTERNS
                 && dict_contains (slice_to 2 num)
                      _Const.LANDLINE_REGIONS)).
Proof.
  unfold __init__. fold (unclassified s (_normalize_number s)).
  rewrite _parse_number_summary. cbv zeta.
  eexists. split; [reflexivity|].
  generalize (national_number (_normalize_number s)) as num. intros num.
  destruct (int_in_tuple (len num) [2; 3; 4]%Z) eqn:H234.
  - destruct (int_in_tuple_234 _ H234) as [-> ->]. cbn [andb orb].
    destruct (dict_contains num _); reflexivity.
  - cbn [andb orb].
    destruct (Z.eqb_spec (len num) 9) as [H9|H9].
    + rewrite H9. cbn [andb orb Z.eqb Pos.eqb].
      destruct (str_in_tuple _ _); reflexivity.
    + cbn [andb orb]. destruct (Z.eqb (len num) 8); [|reflexivity].
      cbn [andb]. destruct (_ && _); reflexivity.
Qed.

(** Claim C3.  Classification is total over strings: for every input the
    constructor returns an instance and raises nothing; the instance records
    the input and its normalization; it is either valid or the invalid
    instance with no attribute set; it is the latter whenever the length of
    the national number is none of 2, 3, 4, 8, 9; and it is valid exactly
    when the national number is an emergency key of 2 to 4 characters, or
    has 9 characters and starts with 5, 6 or 7, or has 8 characters, starts
    with 2, 3 or 4 and begins with an area code of the table.  Every other
    input -- wrong length, unassigned leading digit, unknown area code --
    yields the invalid instance. *)
Theorem C3_classify_total (s : string) :
  exists r, classify s = Ok r
            /\ original_number r = s
            /\ clean_number r = _normalize_number s
            /\ (is_valid r = true
                \/ r = unclassified s (_normalize_number s))
            /\ (int_in_tuple (len (national_number (_normalize_number s)))
                             [2; 3; 4; 8; 9]%Z = true
                \/ r = unclassified s (_normalize_number s))
            /\ is_valid r
               = (let num := national_number (_normalize_number s) in
                  int_in_tuple (len num) [2; 3; 4]%Z
                  && dict_contains num _Const.EMERGENCY_NUMBERS
                  || Z.eqb (len num) 9
                     && str_in_tuple (slice_to 1 num) _Const.MOBILE_PATTERNS
                  || Z.eqb (len num) 8
                     && (str_in_tuple (slice_to 1 num)
                           _Const.LANDLINE_PATTERNS
                         && dict_contains (slice_to 2 num)
                              _Const.LANDLINE_REGIONS)).
Proof.
  unfold classify. destruct (__init___outcome s) as (r & Hr & Hout).
  exists r. split; [exact Hr|].
  split; [destruct Hout; reflexivity|].
  split; [destruct Hout; reflexivity|].
  split; [destruct Hout; cbn; auto|].
  split.
  - destruct (int_in_tuple _ _) eqn:Hlen; [auto|]. right.
    unfold __init__ in Hr.
    fold (unclassified s (_normalize_number s)) in Hr.
    rewrite (_parse_number_other_length _ _ Hlen) in Hr.
    now injection Hr as <-.
  - destruct (__init___is_valid s) as (r' & Hr' & Hvalid).
    rewrite Hr in Hr'. injection Hr' as <-. exact Hvalid.
Qed.

(** Claim C4.  For every input the constructed instance satisfies the three
    record invariants: it is valid iff a category was assigned, its carrier
    is set iff the category is mobile, and its area code and region are both
    set iff the category is landline. *)
Theorem C4_record_invariants (s : string) :
  exists r, classify s = Ok r
            /\ (is_valid r = true <-> number_type r <> None)
            /\ (carrier r <> None <-> number_type r = Some "mobile")
            /\ (area_code r <> None /\ location r <> None
                <-> number_type r = Some "landline").
Proof.
  unfold classify. destruct (__init___outcome s) as (r & Hr & Hout).
  exists r. split; [exact Hr|].
  destruct Hout; cbn; repeat split; try intros [? ?]; intros;
    congruence.
Qed.

(** Claim C9.  For every input the five category predicates are mutually
    exclusive and tied to validity: exactly one of them answers true on a
    valid instance, none on an invalid one. *)
Theorem C9_category_predicates_exclusive (s : string) :
  exists r, classify s = Ok r
            /\ count_true (category_predicates r)
               = (if is_valid r then 1 else 0).
Proof.
  unfold classify. destruct (__init___outcome s) as (r & Hr & Hout).
  exists r. split; [exact Hr|]. destruct Hout; vm_compute; reflexivity.
Qed.

(** Claim C10.  Whenever an instance has category mobile its carrier is one
    of "Ooredoo", "Mobilis", "Djezzy": the default 'Unknown' of the carrier
    lookup is never produced. *)
Theorem C10_mobile_carrier_known (s : string) (r : PhoneNumber) :
  classify s = Ok r ->
  number_type r = Some "mobile" ->
  (carrier r = Some "Ooredoo" \/ carrier r = Some "Mobilis"
   \/ carrier r = Some "Djezzy")
  /\ carrier r <> Some "Unknown".
Proof.
  unfold classify. intros Hr Hmob.
  destruct (__init___outcome s) as (r' & Hr' & Hout).
  rewrite Hr in Hr'. injection Hr' as <-.
  destruct Hout as [|d c Hin _| |]; cbn in Hmob; try discriminate.
  cbn [carrier]. unfold _Const.MOBILE_CARRIERS_items in Hin.
  cbn [In] in Hin.
  destruct Hin as [H|[H|[H|[]]]]; injection H as _ <-;
    (split; [auto | discriminate]).
Qed.

Lemma C10_mobile_carrier_known_witness :
  classify "0559123456"
    = Ok (mkPhoneNumber "0559123456" "0559123456" (Some "mobile") None
            (Some "Ooredoo") None true)
  /\ (Some "Ooredoo" = Some "Ooredoo" \/ Some "Ooredoo" = Some "Mobilis"
      \/ Some "Ooredoo" = Some "Djezzy")
  /\ Some "Ooredoo" <> Some "Unknown".
Proof.
  split; [vm_compute; reflexivity|].
  apply (C10_mobile_carrier_known "0559123456"
           (mkPhoneNumber "0559123456" "0559123456" (Some "mobile") None
              (Some "Ooredoo") None true));
    vm_compute; reflexivity.
Defined.

(** *** Normalization *)

Lemma _normalize_number_filter (s : string) :
  list_ascii_of_string (_normalize_number s)
  = List.filter kept_by_normalize (list_ascii_of_string s).
Proof.
  unfold _normalize_number.
  induction s as [|c s IH]; cbn [re_sub_class list_ascii_of_string
                                 List.filter].
  - reflexivity.
  - change (not_digit_nor_plus c) with (negb (kept_by_normalize c)).
    destruct (kept_by_normalize c); cbn [negb].
    + cbn [list_ascii_of_string]. now rewrite IH.
    + exact IH.
Qed.

Lemma _normalize_number_digits (s : string) :
  is_digit_string s = true -> _normalize_number s = s.
Proof.
  unfold is_digit_string, _normalize_number.
  induction s as [|c s IH]; cbn [re_sub_class list_ascii_of_string forallb].
  - reflexivity.
  - intros [Hc Hs]%andb_true_iff.
    change (not_digit_nor_plus c)
      with (negb (re_digit c || Ascii.eqb c "+"%char)).
    rewrite Hc. cbn [orb negb].
    now rewrite (IH Hs).
Qed.

Lemma _normalize_number_app (s t : string) :
  _normalize_number (s ++ t) = _normalize_number s ++ _normalize_number t.
Proof.
  unfold _normalize_number.
  induction s as [|c s IH].
  - reflexivity.
  - change (String c s ++ t) with (String c (s ++ t)).
    cbn [re_sub_class]. rewrite IH.
    destruct (not_digit_nor_plus c); reflexivity.
Qed.

(** What the pattern does: normalization keeps exactly the decimal digits
    and the '+' characters of the input, in their order and wherever they
    stand. *)
Lemma _normalize_number_keeps_digits_and_plus (s : string) :
  list_ascii_of_string (_normalize_number s)
  = List.filter kept_by_normalize (list_ascii_of_string s)
  /\ forallb kept_by_normalize (list_ascii_of_string (_normalize_number s))
     = true.
Proof.
  split; [apply _normalize_number_filter|].
  rewrite _normalize_number_filter. apply forallb_forall.
  intros c [_ Hc]%filter_In. exact Hc.
Qed.

(** Claim C6 (the code departs from it).  On "1+2" normalization returns
    "1+2": the '+' in the middle is not removed, so the result is neither
    decimal digits after an optional leading '+', as the claim says, nor
    decimal digits only, as the method's docstring says. *)
Theorem C6_inner_plus_not_removed :
  _normalize_number "1+2" = "1+2"
  /\ spec_digits_after_optional_plus (_normalize_number "1+2") = false
  /\ is_digit_string (_normalize_number "1+2") = false.
Proof. repeat split; vm_compute; reflexivity. Qed.

(** *** Dispatch on the length of the national number *)

Lemma _parse_number_len9 (raw clean : string) :
  len (national_number clean) = 9%Z ->
  _parse_number (unclassified raw clean)
  = _parse_mobile (national_number clean) (unclassified raw clean).
Proof.
  intros H. unfold _parse_number. run_method. fold (national_number clean).
  rewrite H, NUMBER_LENGTHS_mobile. reflexivity.
Qed.

Lemma _parse_number_len8 (raw clean : string) :
  len (national_number clean) = 8%Z ->
  _parse_number (unclassified raw clean)
  = _parse_landline (national_number clean) (unclassified raw clean).
Proof.
  intros H. unfold _parse_number. run_method. fold (national_number clean).
  rewrite H, NUMBER_LENGTHS_mobile, NUMBER_LENGTHS_landline. reflexivity.
Qed.

Lemma len_digit_string (s : string) (n : nat) :
  String.length s = n -> len s = Z.of_nat n.
Proof. unfold len. now intros ->. Qed.

(** Claim C5.  For every string of exactly 9 decimal digits whose first
    digit is 5, 6 or 7, [classify] returns a valid instance of category
    mobile whose carrier follows the fixed map 5 -> Ooredoo, 6 -> Mobilis,
    7 -> Djezzy. *)
Theorem C5_mobile_nine_digits (s d c : string) :
  String.length s = 9 ->
  is_digit_string s = true ->
  str_getitem s 0 = Ok d ->
  In (d, c) [("5", "Ooredoo"); ("6", "Mobilis"); ("7", "Djezzy")] ->
  classify s
  = Ok (mkPhoneNumber s s (Some "mobile") None (Some c) None true).
Proof.
  intros Hlen Hdig Hget Hin. unfold classify, __init__.
  rewrite (_normalize_number_digits s Hdig). fold (unclassified s s).
  assert (Hnat : national_number s = s).
  { destruct s as [|a s]; [discriminate|].
    cbn in Hget. injection Hget as <-.
    destruct Hin as [H|[H|[H|[]]]]; injection H as <- _; reflexivity. }
  rewrite _parse_number_len9
    by (rewrite Hnat; apply (len_digit_string s 9 Hlen)).
  rewrite Hnat. unfold _parse_mobile. run_method. rewrite Hget.
  destruct Hin as [H|[H|[H|[]]]]; injection H as <- <-; reflexivity.
Qed.

Lemma C5_mobile_nine_digits_witness :
  String.length "661234567" = 9
  /\ is_digit_string "661234567" = true
  /\ str_getitem "661234567" 0 = Ok "6"
  /\ In ("6", "Mobilis") [("5", "Ooredoo"); ("6", "Mobilis"); ("7", "Djezzy")]
  /\ classify "661234567"
     = Ok (mkPhoneNumber "661234567" "661234567" (Some "mobile") None
             (Some "Mobilis") None true).
Proof.
  assert (Hin : In ("6", "Mobilis")
                   [("5", "Ooredoo"); ("6", "Mobilis"); ("7", "Djezzy")])
    by (right; left; reflexivity).
  split; [reflexivity|]. split; [reflexivity|]. split; [reflexivity|].
  split; [exact Hin|].
  apply (C5_mobile_nine_digits "661234567" "6" "Mobilis");
    [reflexivity | reflexivity | reflexivity | exact Hin].
Defined.

(** *** Landline regions *)

Lemma last_binding_key {V : Type} (k : string) (items : list (string * V))
    (v : V) :
  last_binding k items = Some v -> In k (map fst items).
Proof.
  revert v.
  induction items as [|[k' v'] items IH]; intros v;
    cbn [last_binding map fst In].
  - discriminate.
  - destruct (last_binding k items) as [w|].
    + intros _. right. exact (IH w eq_refl).
    + destruct (String.eqb_spec k' k); [auto | discriminate].
Qed.

Lemma LANDLINE_REGIONS_shadowed (k : string) (geo : GeoCoder) :
  _Const.LANDLINE_REGIONS !! k = Some geo ->
  name geo <> "Ain Defla" /\ name geo <> "Chlef".
Proof.
  intros Hgeo.
  assert (Hk : In k (map fst _Const.LANDLINE_REGIONS_items)).
  { unfold _Const.LANDLINE_REGIONS in Hgeo.
    rewrite dict_literal_lookup in Hgeo.
    exact (last_binding_key _ _ _ Hgeo). }
  cbn in Hk.
  repeat (destruct Hk as [<-|Hk];
          [vm_compute in Hgeo; injection Hgeo as <-; split; discriminate|]).
  destruct Hk.
Qed.

Lemma _parse_landline_27 (raw clean rest : string) :
  _parse_landline (String "2" (String "7" rest)) (unclassified raw clean)
  = Ok (tt, mkPhoneNumber raw clean (Some "landline") (Some "27") None
              (Some Djelfa) true).
Proof. reflexivity. Qed.

(** Claim C8.  An area code resolves to one region, the one the table lists
    last under that key: the table lists "Ain Defla", "Chlef" and "Djelfa"
    under 27; every 8-digit input that starts with 27 is a landline of area
    code 27 whose region is Djelfa; and for no input at all is the resolved
    region "Ain Defla" or "Chlef". *)
Theorem C8_area_code_27_last_entry_wins (rest s : string) :
  String.length rest = 6 ->
  is_digit_string rest = true ->
  names_listed_under "27" = ["Ain Defla"; "Chlef"; "Djelfa"]
  /\ classify ("27" ++ rest)
     = Ok (mkPhoneNumber ("27" ++ rest) ("27" ++ rest) (Some "landline")
             (Some "27") None (Some Djelfa) true)
  /\ exists r, classify s = Ok r
               /\ name <$> location r <> Some "Ain Defla"
               /\ name <$> location r <> Some "Chlef".
Proof.
  intros Hlen Hdig. split; [reflexivity|]. split.
  - unfold classify, __init__.
    assert (Hnorm : _normalize_number ("27" ++ rest) = "27" ++ rest).
    { apply _normalize_number_digits. cbn. exact Hdig. }
    rewrite Hnorm. fold (unclassified ("27" ++ rest) ("27" ++ rest)).
    rewrite _parse_number_len8.
    + change (national_number ("27" ++ rest))
        with (String "2" (String "7" rest)).
      now rewrite _parse_landline_27.
    + change (national_number ("27" ++ rest))
        with (String "2" (String "7" rest)).
      apply (len_digit_string _ 8). cbn [String.length]. now rewrite Hlen.
  - unfold classify. destruct (__init___outcome s) as (r & Hr & Hout).
    exists r. split; [exact Hr|].
    destruct Hout as [| | geo Hgeo |]; cbn; try (split; discriminate).
    destruct (LANDLINE_REGIONS_shadowed _ _ Hgeo) as [H1 H2].
    split; congruence.
Qed.

Lemma C8_area_code_27_last_entry_wins_witness :
  String.length "123456" = 6
  /\ is_digit_string "123456" = true
  /\ names_listed_under "27" = ["Ain Defla"; "Chlef"; "Djelfa"]
  /\ classify "27123456"
     = Ok (mkPhoneNumber "27123456" "27123456" (Some "landline")
             (Some "27") None (Some Djelfa) true)
  /\ exists r, classify "027123456" = Ok r
               /\ name <$> location r <> Some "Ain Defla"
               /\ name <$> location r <> Some "Chlef".
Proof.
  split; [reflexivity|]. split; [reflexivity|].
  apply (C8_area_code_27_last_entry_wins "123456" "027123456");
    reflexivity.
Defined.

(** *** Prefix forms *)

(** [_parse_number] reads its input only through the national number. *)
Lemma _parse_number_frame (raw clean raw' clean' : string) :
  national_number clean = national_number clean' ->
  exists r,
    _parse_number (unclassified raw clean) = Ok (tt, r)
    /\ _parse_number (unclassified raw' clean')
       = Ok (tt, with_input raw' clean' r).
Proof.
  intros Hnat. unfold _parse_number. run_method.
  fold (national_number clean) (national_number clean').
  rewrite <- Hnat. generalize (national_number clean) as num. intros num.
  destruct (int_in_tuple _ _ && dict_contains _ _).
  { eexists; split; reflexivity. }
  rewrite NUMBER_LENGTHS_mobile. cbn [int_eq_length_spec].
  destruct (Z.eqb_spec (len num) 9) as [H9|H9].
  { destruct (len_pos_getitem _ _ H9) as (c & rest & _ & Hget); [lia|].
    unfold _parse_mobile. run_method. rewrite Hget.
    destruct (str_in_tuple _ _); eexists; split; reflexivity. }
  rewrite NUMBER_LENGTHS_landline. cbn [int_eq_length_spec].
  destruct (Z.eqb_spec (len num) 8) as [H8|H8].
  { destruct (len_pos_getitem _ _ H8) as (c & rest & _ & Hget); [lia|].
    unfold _parse_landline. run_method. rewrite Hget.
    destruct (str_in_tuple _ _); [| eexists; split; reflexivity].
    destruct (dict_contains _ _) eqn:Hin; [| eexists; split; reflexivity].
    destruct (dict_contains_getitem _ _ Hin) as (geo & _ & ->).
    eexists; split; reflexivity. }
  rewrite NUMBER_LENGTHS_voip, NUMBER_LENGTHS_vsat.
  cbn [int_eq_length_spec].
  destruct (Z.eqb_spec (len num) 8) as [H8'|_]; [contradiction|].
  eexists; split; reflexivity.
Qed.

Lemma classify_same_national (s t : string) :
  national_number (_normalize_number s)
  = national_number (_normalize_number t) ->
  exists r1 r2, classify s = Ok r1 /\ classify t = Ok r2
                /\ same_classification r1 r2.
Proof.
  intros Hnat. unfold classify, __init__.
  fold (unclassified s (_normalize_number s)).
  fold (unclassified t (_normalize_number t)).
  destruct (_parse_number_frame s (_normalize_number s)
              t (_normalize_number t) Hnat) as (r & -> & ->).
  do 2 eexists. split; [reflexivity|]. split; [reflexivity|].
  repeat split.
Qed.

(** The claim C2 as stated fails: of its three inputs the one written with
    00213 is not classified as mobile, since only one leading 0 is removed
    from it. *)
Lemma C2_counterexample_00213_not_stripped :
  classify "00213559123456"
    = Ok (unclassified "00213559123456" "00213559123456")
  /\ national_number "00213559123456" = "0213559123456"
  /\ ~ (exists r1 r2 r3,
          classify "+213559123456" = Ok r1
          /\ classify "00213559123456" = Ok r2
          /\ classify "0559123456" = Ok r3
          /\ number_type r1 = Some "mobile"
          /\ number_type r2 = Some "mobile"
          /\ number_type r3 = Some "mobile"
          /\ carrier r1 = carrier r2
          /\ carrier r2 = carrier r3).
Proof.
  split; [vm_compute; reflexivity|]. split; [reflexivity|].
  intros (r1 & r2 & r3 & _ & H2 & _ & _ & Hmob & _).
  vm_compute in H2. injection H2 as <-. discriminate Hmob.
Qed.

(** Claim C2 (as the code has it).  The forms "+213" n and "0" n of a
    national number [n] that does not begin with 0 are equivalent: both
    are classified, with the same category, carrier, area code, region and
    validity; [classify "+213559123456"] and [classify "0559123456"] are
    both mobile with carrier Ooredoo.  The international dial prefix 00 is
    not removed: "00213559123456" loses one leading 0 only and is invalid. *)
Theorem C2_prefix_forms_plus213_and_trunk (n : string) :
  startswith (_normalize_number n) "0" = false ->
  (exists r1 r2,
      classify ("+213" ++ n) = Ok r1
      /\ classify ("0" ++ n) = Ok r2
      /\ same_classification r1 r2)
  /\ classify "+213559123456"
     = Ok (mkPhoneNumber "+213559123456" "+213559123456" (Some "mobile")
             None (Some "Ooredoo") None true)
  /\ classify "0559123456"
     = Ok (mkPhoneNumber "0559123456" "0559123456" (Some "mobile")
             None (Some "Ooredoo") None true)
  /\ classify "00213559123456"
     = Ok (unclassified "00213559123456" "00213559123456").
Proof.
  intros Hn0. split; [| repeat split; vm_compute; reflexivity].
  apply classify_same_national.
  rewrite !_normalize_number_app.
  change (_normalize_number "+213") with "+213".
  change (_normalize_number "0") with "0".
  generalize dependent (_normalize_number n). intros m Hm0.
  destruct m as [|c m]; [reflexivity|].
  change (national_number ("+213" ++ String c m))
    with (strip_national (String c m)).
  change (national_number ("0" ++ String c m)) with (String c m).
  unfold strip_national. now rewrite Hm0.
Qed.

Lemma C2_prefix_forms_plus213_and_trunk_witness :
  startswith (_normalize_number "21 12 34 56") "0" = false
  /\ (exists r1 r2,
        classify "+21321 12 34 56" = Ok r1
        /\ classify "021 12 34 56" = Ok r2
        /\ same_classification r1 r2)
  /\ classify "+213559123456"
     = Ok (mkPhoneNumber "+213559123456" "+213559123456" (Some "mobile")
             None (Some "Ooredoo") None true)
  /\ classify "0559123456"
     = Ok (mkPhoneNumber "0559123456" "0559123456" (Some "mobile")
             None (Some "Ooredoo") None true)
  /\ classify "00213559123456"
     = Ok (unclassified "00213559123456" "00213559123456").
Proof.
  split; [reflexivity|].
  exact (C2_prefix_forms_plus213_and_trunk "21 12 34 56" eq_refl).
Defined.

(** ** Further properties of the module *)

(** *** Normalization *)

Lemma forallb_kept_filter (l : list ascii) :
  forallb kept_by_normalize l = true -> List.filter kept_by_normalize l = l.
Proof.
  induction l as [|c l IH]; cbn [forallb List.filter]; [reflexivity|].
  intros [Hc Hl]%andb_true_iff. rewrite Hc. now rewrite (IH Hl).
Qed.

Lemma list_ascii_of_string_inj (s t : string) :
  list_ascii_of_string s = list_ascii_of_string t -> s = t.
Proof.
  intros H. rewrite <- (string_of_list_ascii_of_string s).
  rewrite <- (string_of_list_ascii_of_string t). now rewrite H.
Qed.

Lemma _normalize_number_kept (s : string) :
  forallb kept_by_normalize (list_ascii_of_string (_normalize_number s))
  = true.
Proof.
  rewrite _normalize_number_filter. apply forallb_forall.
  intros c Hc. apply filter_In in Hc. apply Hc.
Qed.

(** Property X1.
    Normalizing twice is normalizing once. *)
Theorem normalize_idempotent (s : string) :
  _normalize_number (_normalize_number s) = _normalize_number s.
Proof.
  apply list_ascii_of_string_inj.
  rewrite (_normalize_number_filter (_normalize_number s)).
  apply forallb_kept_filter, _normalize_number_kept.
Qed.

(** Property X2.
    The strings normalization leaves unchanged are exactly those made of
    decimal digits and '+' characters; on every other string it removes at
    least one character. *)
Theorem normalize_fixed_points (s : string) :
  (_normalize_number s = s
   <-> forallb kept_by_normalize (list_ascii_of_string s) = true)
  /\ String.length (_normalize_number s) <= String.length s.
Proof.
  split; [split|].
  - intros H. rewrite <- H. apply _normalize_number_kept.
  - intros H. apply list_ascii_of_string_inj.
    rewrite _normalize_number_filter. now apply forallb_kept_filter.
  - unfold _normalize_number.
    induction s as [|c s IH]; cbn [re_sub_class String.length]; [lia|].
    destruct (not_digit_nor_plus c).
    + change ("" +:+ re_sub_class not_digit_nor_plus "" s)
        with (re_sub_class not_digit_nor_plus "" s). lia.
    + cbn [String.length]. lia.
Qed.

Lemma dict_contains_key {V : Type} (k : string)
    (items : list (string * V)) :
  dict_contains k (dict_literal items) = true -> In k (map fst items).
Proof.
  unfold dict_contains. rewrite dict_literal_lookup.
  destruct (last_binding k items) as [v|] eqn:Hk; [|discriminate].
  intros _. exact (last_binding_key _ _ _ Hk).
Qed.

(** Every key of [EMERGENCY_NUMBERS] has 2, 3 or 4 characters, so the length
    test that guards the emergency lookup never rejects a key. *)
Lemma EMERGENCY_NUMBERS_key_length (num : string) :
  dict_contains num _Const.EMERGENCY_NUMBERS = true ->
  int_in_tuple (len num) [2; 3; 4]%Z = true.
Proof.
  intros Hin. apply dict_contains_key in Hin. cbn in Hin.
  repeat (destruct Hin as [<-|Hin]; [reflexivity|]). destruct Hin.
Qed.

Lemma slice_to_1_of_2 (s : string) : slice_to 1 (slice_to 2 s) = slice_to 1 s.
Proof. destruct s as [|a [|b s]]; reflexivity. Qed.

(** Every key of [LANDLINE_REGIONS] starts with 2, 3 or 4. *)
Lemma LANDLINE_REGIONS_key_pattern (num : string) :
  dict_contains (slice_to 2 num) _Const.LANDLINE_REGIONS = true ->
  str_in_tuple (slice_to 1 num) _Const.LANDLINE_PATTERNS = true.
Proof.
  intros Hin. apply dict_contains_key in Hin.
  rewrite <- slice_to_1_of_2. revert Hin.
  generalize (slice_to 2 num) as k. intros k Hin. cbn in Hin.
  repeat (destruct Hin as [<-|Hin]; [reflexivity|]). destruct Hin.
Qed.

Ltac classify_by_summary s :=
  unfold classify, __init__;
  fold (unclassified s (_normalize_number s));
  rewrite _parse_number_summary; cbv zeta;
  eexists; split; [reflexivity|].

(** *** The categories, in terms of the national number *)

(** Property X3.
    An input is classified emergency exactly when its national number is a
    key of [EMERGENCY_NUMBERS]. *)
Theorem emergency_iff_key (s : string) :
  exists r, classify s = Ok r
            /\ is_emergency r
               = dict_contains (national_number (_normalize_number s))
                               _Const.EMERGENCY_NUMBERS.
Proof.
  classify_by_summary s.
  generalize (national_number (_normalize_number s)) as num. intros num.
  destruct (dict_contains num _Const.EMERGENCY_NUMBERS) eqn:Hkey.
  - rewrite (EMERGENCY_NUMBERS_key_length num Hkey). reflexivity.
  - rewrite andb_false_r.
    repeat match goal with
           | |- context [if ?b then _ else _] => destruct b
           end; reflexivity.
Qed.

(** Property X4.
    An input is classified mobile exactly when its national number has 9
    characters and starts with 5, 6 or 7; the carrier is then the table
    entry of that first character. *)
Theorem mobile_iff_length_and_first_digit (s : string) :
  exists r,
    classify s = Ok r
    /\ let num := national_number (_normalize_number s) in
       is_mobile r
       = Z.eqb (len num) 9
         && str_in_tuple (slice_to 1 num) _Const.MOBILE_PATTERNS
       /\ carrier r
          = if is_mobile r then _Const.MOBILE_CARRIERS !! slice_to 1 num
            else None.
Proof.
  classify_by_summary s. cbv zeta.
  generalize (national_number (_normalize_number s)) as num. intros num.
  destruct (int_in_tuple (len num) [2; 3; 4]%Z) eqn:Hlen.
  - destruct (int_in_tuple_234 _ Hlen) as [-> ->]. cbn [andb].
    destruct (dict_contains _ _); split; reflexivity.
  - cbn [andb]. destruct (Z.eqb (len num) 9).
    + cbn [andb].
      destruct (str_in_tuple _ _) eqn:Hpat; [|split; reflexivity].
      split; [reflexivity|].
      destruct (MOBILE_PATTERNS_inv _ Hpat) as [-> | [-> | ->]];
        reflexivity.
    + cbn [andb]. destruct (Z.eqb (len num) 8); [|split; reflexivity].
      destruct (_ && _); split; reflexivity.
Qed.

(** Property X5.
    An input is classified landline exactly when its national number has 8
    characters whose first two are a key of [LANDLINE_REGIONS]; the area
    code is then that key and the region its table entry. *)
Theorem landline_iff_length_and_area_code (s : string) :
  exists r,
    classify s = Ok r
    /\ let num := national_number (_normalize_number s) in
       is_landline r
       = Z.eqb (len num) 8
         && dict_contains (slice_to 2 num) _Const.LANDLINE_REGIONS
       /\ area_code r
          = (if is_landline r then Some (slice_to 2 num) else None)
       /\ location r
          = (if is_landline r
             then _Const.LANDLINE_REGIONS !! slice_to 2 num else None).
Proof.
  classify_by_summary s. cbv zeta.
  generalize (national_number (_normalize_number s)) as num. intros num.
  destruct (int_in_tuple (len num) [2; 3; 4]%Z) eqn:Hlen.
  - destruct (int_in_tuple_234 _ Hlen) as [-> ->]. cbn [andb].
    destruct (dict_contains num _); repeat split; reflexivity.
  - cbn [andb]. destruct (Z.eqb_spec (len num) 9) as [H9|H9].
    + rewrite H9. cbn [andb Z.eqb Pos.eqb].
      destruct (str_in_tuple _ _); repeat split; reflexivity.
    + destruct (Z.eqb (len num) 8); [|repeat split; reflexivity].
      cbn [andb].
      destruct (dict_contains (slice_to 2 num) _) eqn:Hkey.
      * rewrite (LANDLINE_REGIONS_key_pattern num Hkey).
        repeat split; reflexivity.
      * rewrite andb_false_r. repeat split; reflexivity.
Qed.

(** Property X6.
    No input is classified voip or vsat: the category of an instance is
    emergency, mobile, landline or none. *)
Theorem category_never_special (s : string) :
  exists r, classify s = Ok r
            /\ is_vsat r = false
            /\ is_voip r = false
            /\ In (number_type r)
                  [None; Some "emergency"; Some "mobile"; Some "landline"].
Proof.
  unfold classify. destruct (__init___outcome s) as (r & Hr & Hout).
  exists r. split; [exact Hr|].
  destruct Hout; cbn; repeat split; auto.
Qed.

(** *** Prefixes *)

(** Property X7.
    The bare country code and the '+' form are interchangeable: "213" n and
    "+213" n are classified alike for every [n]. *)
Theorem bare_213_same_as_plus_213 (n : string) :
  exists r1 r2,
    classify ("213" ++ n) = Ok r1
    /\ classify ("+213" ++ n) = Ok r2
    /\ same_classification r1 r2.
Proof.
  apply classify_same_national.
  rewrite !_normalize_number_app.
  change (_normalize_number "+213") with "+213".
  change (_normalize_number "213") with "213".
  destruct (_normalize_number n) as [|c m]; reflexivity.
Qed.

Lemma startswith_0_inv (m : string) :
  startswith m "0" = true -> exists m', m = String "0" m'.
Proof.
  destruct m as [|a m']; [discriminate|].
  unfold startswith. cbn [String.prefix].
  destruct (ascii_dec "0" a) as [<-|]; [eauto | discriminate].
Qed.

Lemma startswith_0_cons (m : string) : startswith (String "0" m) "0" = true.
Proof. destruct m; reflexivity. Qed.

(** Property X8.
    Only one trunk 0 is removed: an input whose national number still starts
    with 0 (as for "00...", "+21300..." or "21300...") is invalid. *)
Theorem leading_zero_left_is_invalid (s : string) :
  startswith (national_number (_normalize_number s)) "0" = true ->
  classify s = Ok (unclassified s (_normalize_number s)).
Proof.
  intros H0. destruct (startswith_0_inv _ H0) as (m & Hm).
  unfold classify, __init__.
  fold (unclassified s (_normalize_number s)).
  rewrite _parse_number_summary. cbv zeta. rewrite Hm.
  assert (Hem : dict_contains (String "0" m) _Const.EMERGENCY_NUMBERS
                = false).
  { destruct (dict_contains _ _) eqn:Hin; [|reflexivity].
    apply dict_contains_key in Hin. cbn in Hin.
    repeat (destruct Hin as [Hin|Hin]; [discriminate Hin|]).
    destruct Hin. }
  rewrite Hem, andb_false_r.
  change (slice_to 1 (String "0" m)) with "0".
  change (str_in_tuple "0" _Const.MOBILE_PATTERNS) with false.
  change (str_in_tuple "0" _Const.LANDLINE_PATTERNS) with false.
  cbn [andb].
  repeat match goal with
         | |- context [if ?b then _ else _] => destruct b
         end; reflexivity.
Qed.

Lemma leading_zero_left_is_invalid_witness :
  startswith (national_number (_normalize_number "00 213 559 12 34 56")) "0"
  = true
  /\ classify "00 213 559 12 34 56"
     = Ok (unclassified "00 213 559 12 34 56"
             (_normalize_number "00 213 559 12 34 56")).
Proof.
  split; [reflexivity|].
  exact (leading_zero_left_is_invalid "00 213 559 12 34 56" eq_refl).
Defined.

Lemma string_length_5 (s : string) :
  String.length s = 5 ->
  exists a b c d e,
    s = String a (String b (String c (String d (String e "")))).
Proof.
  destruct s as [|a [|b [|c [|d [|e [|f s]]]]]]; try discriminate.
  intros _. eauto 6.
Qed.

(** Property X9.
    An Algiers number that starts with 3, written without the trunk 0, is
    taken for a number with country code: the eight digits "213" r are never
    classified landline, while "0213" r is the landline of area code 21. *)
Theorem landline_213_needs_trunk_prefix (rest : string) :
  String.length rest = 5 ->
  is_digit_string rest = true ->
  (exists r, classify ("213" ++ rest) = Ok r /\ is_landline r = false)
  /\ exists r, classify ("0213" ++ rest) = Ok r
               /\ is_landline r = true
               /\ area_code r = Some "21"
               /\ name <$> location r = Some "Algiers".
Proof.
  intros Hlen Hdig. split.
  - classify_by_summary ("213" ++ rest).
    assert (Hnorm : _normalize_number ("213" ++ rest) = "213" ++ rest)
      by (apply _normalize_number_digits; exact Hdig).
    rewrite Hnorm.
    destruct (string_length_5 rest Hlen) as (a & b & c & d & e & ->).
    change (national_number
              ("213" ++ String a (String b (String c (String d (String e ""))))))
      with (strip_national
              (String a (String b (String c (String d (String e "")))))).
    unfold strip_national, startswith. cbn [String.prefix].
    destruct (ascii_dec "0" a); cbn [slice_from];
      (destruct (_ && _); reflexivity).
  - unfold classify, __init__.
    assert (Hnorm : _normalize_number ("0213" ++ rest) = "0213" ++ rest)
      by (apply _normalize_number_digits; exact Hdig).
    rewrite Hnorm. fold (unclassified ("0213" ++ rest) ("0213" ++ rest)).
    rewrite _parse_number_len8.
    + change (national_number ("0213" ++ rest))
        with (String "2" (String "1" (String "3" rest))).
      eexists. split; [reflexivity|]. repeat split.
    + change (national_number ("0213" ++ rest))
        with (String "2" (String "1" (String "3" rest))).
      apply (len_digit_string _ 8). cbn [String.length]. now rewrite Hlen.
Qed.

Lemma landline_213_needs_trunk_prefix_witness :
  String.length "12345" = 5
  /\ is_digit_string "12345" = true
  /\ (exists r, classify "21312345" = Ok r /\ is_landline r = false)
  /\ exists r, classify "021312345" = Ok r
               /\ is_landline r = true
               /\ area_code r = Some "21"
               /\ name <$> location r = Some "Algiers".
Proof.
  split; [reflexivity|]. split; [reflexivity|].
  exact (landline_213_needs_trunk_prefix "12345" eq_refl eq_refl).
Defined.

(** *** Numbers the classifier accepts *)

(** Property X10.
    A mobile number is recognized by its length and first digit alone: nine
    characters that survive normalization, the first being 5, 6 or 7, are a
    valid mobile number even when '+' characters stand among the others. *)
Theorem mobile_accepts_inner_plus (d c t : string) :
  In (d, c) _Const.MOBILE_CARRIERS_items ->
  String.length t = 8 ->
  forallb kept_by_normalize (list_ascii_of_string t) = true ->
  classify (d ++ t)
  = Ok (mkPhoneNumber (d ++ t) (d ++ t) (Some "mobile") None (Some c) None
          true).
Proof.
  intros Hin Hlen Hkept. unfold classify, __init__.
  assert (Hnorm : _normalize_number (d ++ t) = d ++ t).
  { rewrite _normalize_number_app.
    assert (Ht : _normalize_number t = t).
    { apply list_ascii_of_string_inj. rewrite _normalize_number_filter.
      now apply forallb_kept_filter. }
    rewrite Ht.
    destruct Hin as [H|[H|[H|[]]]]; injection H as <- _; reflexivity. }
  rewrite Hnorm. fold (unclassified (d ++ t) (d ++ t)).
  destruct Hin as [H|[H|[H|[]]]]; injection H as <- <-;
    (rewrite _parse_number_len9;
     [ reflexivity
     | apply (len_digit_string _ 9);
       change (S (String.length t) = 9); now rewrite Hlen ]).
Qed.

Lemma mobile_accepts_inner_plus_witness :
  In ("7", "Djezzy") _Const.MOBILE_CARRIERS_items
  /\ String.length "70+12+34" = 8
  /\ forallb kept_by_normalize (list_ascii_of_string "70+12+34") = true
  /\ classify "770+12+34"
     = Ok (mkPhoneNumber "770+12+34" "770+12+34" (Some "mobile") None
             (Some "Djezzy") None true).
Proof.
  assert (Hin : In ("7", "Djezzy") _Const.MOBILE_CARRIERS_items)
    by (right; right; left; reflexivity).
  split; [exact Hin|]. split; [reflexivity|]. split; [reflexivity|].
  exact (mobile_accepts_inner_plus "7" "Djezzy" "70+12+34" Hin eq_refl
           eq_refl).
Defined.

Lemma LANDLINE_PATTERNS_inv (s : string) :
  str_in_tuple (slice_to 1 s) _Const.LANDLINE_PATTERNS = true ->
  exists c rest, s = String c rest
                 /\ (c = "2" \/ c = "3" \/ c = "4")%char.
Proof.
  destruct s as [|c rest]; [discriminate|].
  change (slice_to 1 (String c rest)) with (String c "").
  unfold str_in_tuple, _Const.LANDLINE_PATTERNS. cbn [existsb].
  intros H. exists c, rest. split; [reflexivity|].
  destruct (String.eqb_spec (String c "") "2") as [E|_];
    [injection E; auto|].
  destruct (String.eqb_spec (String c "") "3") as [E|_];
    [injection E; auto|].
  destruct (String.eqb_spec (String c "") "4") as [E|_];
    [injection E; auto|].
  discriminate.
Qed.

(** Property X11.
    Eight digits whose first two are an area code of the table are a valid
    landline number of that area code and of the region the table keeps for
    it, provided they do not start with 213. *)
Theorem landline_eight_digits (s : string) :
  String.length s = 8 ->
  is_digit_string s = true ->
  startswith s "213" = false ->
  dict_contains (slice_to 2 s) _Const.LANDLINE_REGIONS = true ->
  classify s
  = Ok (mkPhoneNumber s s (Some "landline") (Some (slice_to 2 s)) None
          (_Const.LANDLINE_REGIONS !! slice_to 2 s) true).
Proof.
  intros Hlen Hdig H213 Hkey. unfold classify, __init__.
  rewrite (_normalize_number_digits s Hdig). fold (unclassified s s).
  pose proof (LANDLINE_REGIONS_key_pattern s Hkey) as Hpat.
  assert (Hnat : national_number s = s).
  { unfold national_number, strip_international. rewrite H213.
    destruct (LANDLINE_PATTERNS_inv s Hpat) as (c & rest & -> & Hc).
    destruct Hc as [-> | [-> | ->]]; reflexivity. }
  rewrite _parse_number_summary. cbv zeta. rewrite Hnat.
  rewrite (len_digit_string s 8 Hlen), Hpat, Hkey. reflexivity.
Qed.

Lemma landline_eight_digits_witness :
  String.length "41334455" = 8
  /\ is_digit_string "41334455" = true
  /\ startswith "41334455" "213" = false
  /\ dict_contains (slice_to 2 "41334455") _Const.LANDLINE_REGIONS = true
  /\ classify "41334455"
     = Ok (mkPhoneNumber "41334455" "41334455" (Some "landline")
             (Some (slice_to 2 "41334455")) None
             (_Const.LANDLINE_REGIONS !! slice_to 2 "41334455") true).
Proof.
  split; [reflexivity|]. split; [reflexivity|]. split; [reflexivity|].
  split; [reflexivity|].
  exact (landline_eight_digits "41334455" eq_refl eq_refl eq_refl eq_refl).
Defined.

(** *** The regions a lookup can return *)

(** Every region the table keeps has the default timezone and is not one of
    the replaced entries. *)
Lemma LANDLINE_REGIONS_kept (k : string) (geo : GeoCoder) :
  _Const.LANDLINE_REGIONS !! k = Some geo ->
  timezone geo = "Africa/Algiers"
  /\ str_in_tuple (name geo) shadowed_names = false.
Proof.
  intros Hgeo.
  assert (Hk : In k (map fst _Const.LANDLINE_REGIONS_items)).
  { unfold _Const.LANDLINE_REGIONS in Hgeo.
    rewrite dict_literal_lookup in Hgeo.
    exact (last_binding_key _ _ _ Hgeo). }
  cbn in Hk.
  repeat (destruct Hk as [<-|Hk];
          [vm_compute in Hgeo; injection Hgeo as <-;
           split; vm_compute; reflexivity|]).
  destruct Hk.
Qed.

(** Property X12.
    The table lists 42 regions under 20 area codes.  For every input the
    region of the instance is the entry written last under its area code;
    the 22 entries written earlier under a repeated code are never
    returned. *)
Theorem region_is_last_entry_of_area_code (s : string) :
  List.length _Const.LANDLINE_REGIONS_items = 42
  /\ size _Const.LANDLINE_REGIONS = 20
  /\ List.length shadowed_names = 22
  /\ exists r,
       classify s = Ok r
       /\ location r
          = match area_code r with
            | Some ac => last_binding ac _Const.LANDLINE_REGIONS_items
            | None => None
            end
       /\ match location r with
          | Some geo => str_in_tuple (name geo) shadowed_names = false
          | None => True
          end.
Proof.
  split; [reflexivity|]. split; [vm_compute; reflexivity|].
  split; [vm_compute; reflexivity|].
  unfold classify. destruct (__init___outcome s) as (r & Hr & Hout).
  exists r. split; [exact Hr|].
  destruct Hout as [| | geo Hgeo |]; cbn [location area_code unclassified];
    try (split; [reflexivity | exact I]).
  split.
  - rewrite <- Hgeo. apply dict_literal_lookup.
  - apply (LANDLINE_REGIONS_kept _ _ Hgeo).
Qed.

(** *** [get_all_info] *)

Lemma get_all_info_lookups (self : PhoneNumber) :
  get_all_info self !! "original_number"
    = Some (PyObj.VStr (original_number self))
  /\ get_all_info self !! "clean_number"
     = Some (PyObj.VStr (clean_number self))
  /\ get_all_info self !! "type"
     = Some (PyObj.of_option (number_type self))
  /\ get_all_info self !! "valid" = Some (PyObj.VBool (is_valid self))
  /\ get_all_info self !! "carrier"
     = Some (PyObj.of_option (carrier self))
  /\ get_all_info self !! "area_code"
     = Some (PyObj.of_option (area_code self))
  /\ get_all_info self !! "location"
     = Some (match location self with
             | Some loc => PyObj.VStr (name loc)
             | None => PyObj.VNone
             end)
  /\ get_all_info self !! "coordinates"
     = Some (match location self with
             | Some loc => PyObj.VFloatPair (longitude loc) (latitude loc)
             | None => PyObj.VNone
             end)
  /\ get_all_info self !! "timezone"
     = Some (match location self with
             | Some loc => PyObj.VStr (timezone loc)
             | None => PyObj.VNone
             end).
Proof.
  unfold get_all_info. rewrite !dict_literal_lookup.
  repeat split; reflexivity.
Qed.

Lemma of_option_inj (o1 o2 : option string) :
  PyObj.of_option o1 = PyObj.of_option o2 -> o1 = o2.
Proof. destruct o1, o2; cbn; congruence. Qed.

(** Property X13.
    Reading the mapping back recovers the instance up to the altitude of its
    region: two instances with the same [get_all_info] have the same input,
    normalization, category, validity, carrier and area code, and regions
    with the same name, coordinates and timezone.  The altitude is not part
    of the mapping. *)
Theorem get_all_info_read_back (r1 r2 : PhoneNumber) :
  get_all_info r1 = get_all_info r2 ->
  original_number r1 = original_number r2
  /\ clean_number r1 = clean_number r2
  /\ number_type r1 = number_type r2
  /\ is_valid r1 = is_valid r2
  /\ carrier r1 = carrier r2
  /\ area_code r1 = area_code r2
  /\ name <$> location r1 = name <$> location r2
  /\ longitude <$> location r1 = longitude <$> location r2
  /\ latitude <$> location r1 = latitude <$> location r2
  /\ timezone <$> location r1 = timezone <$> location r2.
Proof.
  intros H.
  destruct (get_all_info_lookups r1)
    as (A1 & A2 & A3 & A4 & A5 & A6 & A7 & A8 & A9).
  destruct (get_all_info_lookups r2)
    as (B1 & B2 & B3 & B4 & B5 & B6 & B7 & B8 & B9).
  rewrite H in A1, A2, A3, A4, A5, A6, A7, A8, A9.
  rewrite A1 in B1. rewrite A2 in B2. rewrite A3 in B3. rewrite A4 in B4.
  rewrite A5 in B5. rewrite A6 in B6. rewrite A7 in B7. rewrite A8 in B8.
  rewrite A9 in B9.
  injection B1 as B1. injection B2 as B2. injection B3 as B3.
  injection B4 as B4. injection B5 as B5. injection B6 as B6.
  injection B7 as B7. injection B8 as B8. injection B9 as B9.
  apply of_option_inj in B3, B5, B6.
  repeat split; try congruence;
    destruct (location r1), (location r2); cbn in *; congruence.
Qed.

Lemma get_all_info_read_back_witness :
  let r1 := mkPhoneNumber "a" "1" None None None
              (Some (GeoCoder4 "X" 1 2 3)) true in
  let r2 := mkPhoneNumber "a" "1" None None None
              (Some (GeoCoder4 "X" 1 2 4)) true in
  get_all_info r1 = get_all_info r2
  /\ original_number r1 = original_number r2
  /\ clean_number r1 = clean_number r2
  /\ number_type r1 = number_type r2
  /\ is_valid r1 = is_valid r2
  /\ carrier r1 = carrier r2
  /\ area_code r1 = area_code r2
  /\ name <$> location r1 = name <$> location r2
  /\ longitude <$> location r1 = longitude <$> location r2
  /\ latitude <$> location r1 = latitude <$> location r2
  /\ timezone <$> location r1 = timezone <$> location r2.
Proof.
  intros r1 r2.
  assert (H : get_all_info r1 = get_all_info r2) by reflexivity.
  split; [exact H|].
  exact (get_all_info_read_back r1 r2 H).
Defined.

(** Property X14.
    For every input, the mapping of the constructed instance reports the
    input and its normalization, is valid exactly when a category is
    reported, and reports a region, coordinates and the timezone
    "Africa/Algiers" for a landline and [None] for each of them
    otherwise. *)
Theorem get_all_info_of_classified (s : string) :
  exists r,
    classify s = Ok r
    /\ let info := get_all_info r in
       info !! "original_number" = Some (PyObj.VStr s)
       /\ info !! "clean_number" = Some (PyObj.VStr (_normalize_number s))
       /\ (info !! "valid" = Some (PyObj.VBool true)
           <-> info !! "type" <> Some PyObj.VNone)
       /\ info !! "timezone"
          = Some (if is_landline r then PyObj.VStr "Africa/Algiers"
                  else PyObj.VNone)
       /\ (info !! "location" = Some PyObj.VNone
           <-> is_landline r = false)
       /\ (info !! "coordinates" = Some PyObj.VNone
           <-> is_landline r = false).
Proof.
  unfold classify. destruct (__init___outcome s) as (r & Hr & Hout).
  exists r. split; [exact Hr|]. cbv zeta.
  destruct (get_all_info_lookups r)
    as (A1 & A2 & A3 & A4 & _ & _ & A7 & A8 & A9).
  rewrite A1, A2, A3, A4, A7, A8, A9.
  destruct Hout as [| | geo Hgeo |]; cbn; repeat split;
    try congruence; try discriminate.
  destruct (LANDLINE_REGIONS_kept _ _ Hgeo) as [-> _]. reflexivity.
Qed.

(** *** [__str__] *)

Lemma landline_area_code_nonempty (num : string) (geo : GeoCoder) :
  _Const.LANDLINE_REGIONS !! slice_to 2 num = Some geo ->
  PyObj.truthy (Some (slice_to 2 num)) = true.
Proof.
  intros Hgeo.
  assert (Hin : dict_contains (slice_to 2 num) _Const.LANDLINE_REGIONS
                = true)
    by (unfold dict_contains; now rewrite Hgeo).
  apply LANDLINE_REGIONS_key_pattern, LANDLINE_PATTERNS_inv in Hin.
  destruct Hin as (c & rest & -> & _). destruct rest; reflexivity.
Qed.

(** Property X15.
    Rendering a constructed instance never raises.  An invalid instance is
    rendered as one line that quotes the input as it was given; a valid one
    as the lines, joined by newlines, that show the normalized input, the
    category in upper case and then the carrier of a mobile number, or the
    area code, region name and coordinates of a landline. *)
Theorem str_of_classified (float_repr : float -> string) (s : string) :
  exists r,
    classify s = Ok r
    /\ __str__ float_repr r
       = PyObj.Ok
           (let head := "Algerian Phone Number: " ++ _normalize_number s in
            if is_emergency r then
              PyObj.join newline [head; "Type: EMERGENCY"]
            else if is_mobile r then
              PyObj.join newline
                [head; "Type: MOBILE";
                 "Carrier: " ++ default "" (carrier r)]
            else
              match location r with
              | Some geo =>
                  PyObj.join newline
                    [head; "Type: LANDLINE";
                     "Area Code: " ++ default "" (area_code r);
                     "Location: " ++ name geo;
                     "Coordinates: "
                     ++ "(" ++ float_repr (longitude geo) ++ ", "
                     ++ float_repr (latitude geo) ++ ")"]
              | None => "Invalid Algerian phone number: " ++ s
              end).
Proof.
  unfold classify. destruct (__init___outcome s) as (r & Hr & Hout).
  exists r. split; [exact Hr|].
  destruct Hout as [|d c Hin _|geo Hgeo|].
  - reflexivity.
  - destruct Hin as [H|[H|[H|[]]]]; injection H as _ <-; reflexivity.
  - pose proof (landline_area_code_nonempty _ _ Hgeo) as Hac.
    unfold __str__. cbn [is_valid negb carrier area_code location].
    destruct (get_all_info_lookups
                (mkPhoneNumber s (_normalize_number s) (Some "landline")
                   (Some (slice_to 2
                            (national_number (_normalize_number s))))
                   None (Some geo) true))
      as (_ & _ & A3 & _ & _ & _ & A7 & A8 & _).
    unfold PyObj.getitem. rewrite A3, A7, A8, Hac.
    reflexivity.
  - reflexivity.
Qed.

(** Property X16.
    For attributes of their declared types, [__str__] raises in exactly one
    case: when the instance is marked valid but has no category, the
    upper-casing of the category fails with [AttributeError]; in every
    other case it returns a string. *)
Theorem str_raises_only_without_category (float_repr : float -> string)
    (self : PhoneNumber) :
  (is_valid self = true /\ number_type self = None
   /\ __str__ float_repr self = PyObj.Raise (PyObj.AttributeError "upper"))
  \/ ((is_valid self = false \/ number_type self <> None)
      /\ exists text, __str__ float_repr self = PyObj.Ok text).
Proof.
  unfold __str__. destruct (get_all_info_lookups self)
    as (_ & _ & A3 & _ & _ & _ & A7 & A8 & _).
  unfold PyObj.getitem. rewrite A3, A7, A8.
  destruct self as [raw clean ty ac ca loc valid].
  cbn [is_valid number_type carrier area_code location clean_number
       original_number].
  destruct valid; cbn [negb].
  - destruct ty as [t|]; cbn [PyObj.of_option PyObj.bind PyObj.upper].
    + right. split; [right; discriminate|].
      destruct (PyObj.truthy ca), (PyObj.truthy ac), loc;
        cbn [PyObj.bind]; eexists; reflexivity.
    + left. repeat split.
  - right. split; [left; reflexivity | eexists; reflexivity].
Qed.
